(** * A shallow embedding of the AIStore Python client

    Two parts of the repository are embedded:

    - [openapi_client/models/cluster_map.py]: the generated [ClusterMap]
      model (constructor, property setters, [to_dict], [__eq__], [__ne__]);
    - [aistore/sdk/object.py]: the [Object] facade ([head], [get], [put],
      [promote], [delete]) over a request client.

    Python objects that are shared and mutated (dicts, response bodies,
    writers) live in an explicit store and are passed by reference. *)

From Stdlib Require Import ZArith String List Lia.
From Stdlib.Strings Require Import Byte.
From stdpp Require Import base decidable option list strings gmap fin_maps.

Local Open Scope string_scope.

(** ** cluster_map.py *)

Module ClusterMapModel.
Section model.

(** [DaemonInfo] is another generated model class; the cluster map only
  stores its instances, compares them with [==] and calls their
  [to_dict].  [DaemonDict] is what that [to_dict] returns. *)
Context {DaemonInfo DaemonDict : Type} `{!EqDecision DaemonInfo}.
Variable DaemonInfo_to_dict : DaemonInfo -> DaemonDict.

(** The instance attributes assigned in [__init__]. *)
Record ClusterMap := mkClusterMap {
_tmap : option (gmap string DaemonInfo);
_pmap : option (gmap string DaemonInfo);
_proxy_si : option DaemonInfo;
_version : option Z;
discriminator : option string
}.

(** Property getters. *)
Definition tmap (self : ClusterMap) := _tmap self.
Definition pmap (self : ClusterMap) := _pmap self.
Definition proxy_si (self : ClusterMap) := _proxy_si self.
Definition version (self : ClusterMap) := _version self.

(** Property setters: each one is a plain assignment to its attribute. *)
Definition set_tmap (self : ClusterMap) (tmap : option (gmap string DaemonInfo)) :=
mkClusterMap tmap (_pmap self) (_proxy_si self) (_version self) (discriminator self).
Definition set_pmap (self : ClusterMap) (pmap : option (gmap string DaemonInfo)) :=
mkClusterMap (_tmap self) pmap (_proxy_si self) (_version self) (discriminator self).
Definition set_proxy_si (self : ClusterMap) (proxy_si : option DaemonInfo) :=
mkClusterMap (_tmap self) (_pmap self) proxy_si (_version self) (discriminator self).
Definition set_version (self : ClusterMap) (version : option Z) :=
mkClusterMap (_tmap self) (_pmap self) (_proxy_si self) version (discriminator self).

(** [__init__(self, tmap=None, pmap=None, proxy_si=None, version=None)]:
  an argument left out is [None]. *)
Definition __init__ (tmap pmap : option (gmap string DaemonInfo))
  (proxy_si : option DaemonInfo) (version : option Z) : ClusterMap :=
let self := mkClusterMap None None None None None in
let self := if tmap is Some _ then set_tmap self tmap else self in
let self := if pmap is Some _ then set_pmap self pmap else self in
let self := if proxy_si is Some _ then set_proxy_si self proxy_si else self in
let self := if version is Some _ then set_version self version else self in
self.

(** The values an attribute of a cluster map can hold. *)
Inductive AttrValue :=
| ANone
| AInt (z : Z)
| AStr (s : string)
| AModel (d : DaemonInfo)
| AList (l : list DaemonInfo)
| ADict (m : gmap string DaemonInfo).

#[export] Instance AttrValue_eq_dec : EqDecision AttrValue.
Proof. solve_decision. Defined.

Definition of_dict (o : option (gmap string DaemonInfo)) : AttrValue :=
match o with Some m => ADict m | None => ANone end.
Definition of_model (o : option DaemonInfo) : AttrValue :=
match o with Some d => AModel d | None => ANone end.
Definition of_int (o : option Z) : AttrValue :=
match o with Some z => AInt z | None => ANone end.
Definition of_str (o : option string) : AttrValue :=
match o with Some s => AStr s | None => ANone end.

(** Class attribute [openapi_types]: attribute name and declared type. *)
Definition openapi_types : list (string * string) :=
[ ("tmap", "dict(str, DaemonInfo)");
  ("pmap", "dict(str, DaemonInfo)");
  ("proxy_si", "DaemonInfo");
  ("version", "int") ].

(** Class attribute [attribute_map]: attribute name and json key. *)
Definition attribute_map : list (string * string) :=
[ ("tmap", "tmap"); ("pmap", "pmap");
  ("proxy_si", "proxy_si"); ("version", "version") ].

(** [getattr(self, attr)]; [None] stands for [AttributeError]. *)
Definition getattr (self : ClusterMap) (attr : string) : option AttrValue :=
if decide (attr = "tmap") then Some (of_dict (tmap self))
else if decide (attr = "pmap") then Some (of_dict (pmap self))
else if decide (attr = "proxy_si") then Some (of_model (proxy_si self))
else if decide (attr = "version") then Some (of_int (version self))
else if decide (attr = "discriminator") then Some (of_str (discriminator self))
else None.

(** What [to_dict] stores under a key. *)
Inductive DictValue :=
| VNone
| VInt (z : Z)
| VStr (s : string)
| VModel (d : DaemonDict)
| VList (l : list DaemonDict)
| VDict (m : gmap string DaemonDict).

(** The body of the loop of [to_dict]: a list is mapped element by
  element, a model is converted with its own [to_dict], the values of a
  dict are converted, anything else is stored as it is. *)
Definition to_dict_value (value : AttrValue) : DictValue :=
match value with
| AList l => VList (DaemonInfo_to_dict <$> l)
| AModel d => VModel (DaemonInfo_to_dict d)
| ADict m => VDict (DaemonInfo_to_dict <$> m)
| AInt z => VInt z
| AStr s => VStr s
| ANone => VNone
end.

Fixpoint to_dict_loop (self : ClusterMap) (attrs : list (string * string))
  (result : gmap string DictValue) : option (gmap string DictValue) :=
match attrs with
| [] => Some result
| (attr, _) :: rest =>
    match getattr self attr with
    | Some value => to_dict_loop self rest (<[attr := to_dict_value value]> result)
    | None => None
    end
end.

Definition to_dict (self : ClusterMap) : option (gmap string DictValue) :=
to_dict_loop self openapi_types ∅.

(** [self.__dict__]: the instance attributes by name. *)
Definition __dict__ (self : ClusterMap) : gmap string AttrValue :=
<["_tmap" := of_dict (_tmap self)]>
(<["_pmap" := of_dict (_pmap self)]>
(<["_proxy_si" := of_model (_proxy_si self)]>
(<["_version" := of_int (_version self)]>
(<["discriminator" := of_str (discriminator self)]> ∅)))).

(** The right-hand side of a comparison can be any Python value. *)
Inductive PyObject :=
| PyNone
| PyInt (z : Z)
| PyStr (s : string)
| PyDict (m : gmap string DaemonInfo)
| PyDaemonInfo (d : DaemonInfo)
| PyClusterMap (cm : ClusterMap).

Definition __eq__ (self : ClusterMap) (other : PyObject) : bool :=
match other with
| PyClusterMap other => bool_decide (__dict__ self = __dict__ other)
| _ => false
end.

Definition __ne__ (self : ClusterMap) (other : PyObject) : bool :=
negb (__eq__ self other).




(** Objects made through the class: the constructor and the setters. *)
Inductive constructed : ClusterMap -> Prop :=
| constructed_init t p s v : constructed (__init__ t p s v)
| constructed_tmap cm t : constructed cm -> constructed (set_tmap cm t)
| constructed_pmap cm p : constructed cm -> constructed (set_pmap cm p)
| constructed_proxy_si cm s : constructed cm -> constructed (set_proxy_si cm s)
| constructed_version cm v : constructed cm -> constructed (set_version cm v).

End model.
End ClusterMapModel.

(** ** object.py *)

Module Sdk.

Abbreviation bytes := (list byte).
Abbreviation loc := positive.
Abbreviation Header := (gmap string string).

(** *** Values of the modules that [object.py] imports *)

(** The HTTP verbs of [aistore.sdk.const]. *)
Inductive Method :=
| HTTP_METHOD_GET
| HTTP_METHOD_HEAD
| HTTP_METHOD_PUT
| HTTP_METHOD_POST
| HTTP_METHOD_DELETE.

(** Modelled from the spec: the constants [QParamArchpath],
    [QParamETLName] and [ACT_PROMOTE] of [aistore/sdk/const.py], which is
    not among the sources; the names are those of the data-plane HTTP
    surface ([?archpath=&etl_name=], ["action": "promote"]). *)
Definition QParamArchpath : string := "archpath".
Definition QParamETLName : string := "etl_name".
Definition ACT_PROMOTE : string := "promote".

Inductive Exn :=
| ValueError (msg : string)
| FileNotFoundError (path : string)
| IsADirectoryError (path : string)
| PermissionError (path : string)
| HTTPError (status : Z)
| AISError (msg : string)
| ConnectionError
| ConnectTimeout
| ReadTimeout
| RequestException.

Inductive Result (A : Type) :=
| Returned (a : A)
| Raised (e : Exn).
Arguments Returned {A} a.
Arguments Raised {A} e.

(** JSON values as far as the action message needs them. *)
Inductive JAtom :=
| JNull
| JBool (b : bool)
| JStr (s : string).

Inductive JVal :=
| JA (a : JAtom)
| JObj (o : gmap string JAtom).

(** Modelled from the spec: [PromoteOptions] of [aistore/sdk/types.py],
    which is not among the sources: an optional target identifier and the
    four flags. *)
Module PromoteOptions.
Record t := make {
  target_id : option string;
  recursive : bool;
  overwrite_dest : bool;
  delete_source : bool;
  src_not_file_share : bool
}.
End PromoteOptions.

(** Modelled from the spec: [PromoteAPIArgs] of [aistore/sdk/types.py],
    which is not among the sources.  The field names are the keyword
    arguments [Object.promote] passes; a field that is not passed takes
    its default (no target, flags off) and [get_json] writes every field
    under its name. *)
Module PromoteAPIArgs.
Record t := make {
  target_id : option string;
  source_path : string;
  object_name : string;
  recursive : bool;
  overwrite_dest : bool;
  delete_source : bool;
  src_not_file_share : bool
}.

Definition with_defaults (source_path object_name : string) : t :=
  make None source_path object_name false false false false.

Definition get_json (self : t) : gmap string JAtom :=
  <["target_id" := if target_id self is Some tid then JStr tid else JNull]>
  (<["source_path" := JStr (source_path self)]>
  (<["object_name" := JStr (object_name self)]>
  (<["recursive" := JBool (recursive self)]>
  (<["overwrite_dest" := JBool (overwrite_dest self)]>
  (<["delete_source" := JBool (delete_source self)]>
  (<["src_not_file_share" := JBool (src_not_file_share self)]> ∅)))))).
End PromoteAPIArgs.

(** Modelled from the spec: [ActionMsg] of [aistore/sdk/types.py], which
    is not among the sources; [dict] is the action body
    [{"action": .., "name": .., "value": ..}]. *)
Module ActionMsg.
Record t := make {
  action : string;
  name : string;
  value : gmap string JAtom
}.

Definition dict (self : t) : gmap string JVal :=
  <["action" := JA (JStr (action self))]>
  (<["name" := JA (JStr (name self))]>
  (<["value" := JObj (value self)]> ∅)).
End ActionMsg.

(** What one call of [RequestClient.request] puts on the wire: the
    positional and keyword arguments, with the query parameters as they
    are in the dict at the time of the call. *)
Record Request := mkRequest {
  method : Method;
  path : string;
  params : gmap string string;
  stream_flag : bool;
  data : option bytes;
  json : option (gmap string JVal)
}.

(** The cluster member a request is sent to. *)
Inductive Destination :=
| PrimaryProxy
| Member (id : string).

(** What comes back for a request that succeeded. *)
Record Reply := mkReply {
  reply_headers : Header;
  reply_body : bytes
}.

(** A [requests.Response]: its headers, and a reference to its body,
    which is consumed as it is read. *)
Record Response := mkResponse {
  resp_id : loc;
  headers : Header
}.

(** Modelled from the spec: [ObjStream] of [aistore/sdk/types.py], which
    is not among the sources; the fields are the keyword arguments
    [Object.get] passes. *)
Record ObjStream := mkObjStream {
  stream : Response;
  response_headers : Header;
  chunk_size : Z
}.

(** *** The store *)

Record World := mkWorld {
  dicts : gmap loc (gmap string string);   (* dict objects *)
  responses : gmap loc bytes;              (* unread body of each response *)
  writers : gmap loc (list bytes);         (* [write] calls each writer received *)
  files : gmap string bytes;               (* the local files that open and read *)
  open_errors : gmap string Exn;           (* what [open] raises for a path it cannot open *)
  calls : list (Destination * Request)     (* requests issued so far *)
}.

Definition set_dicts (f : gmap loc (gmap string string) -> gmap loc (gmap string string))
    (w : World) : World :=
  mkWorld (f (dicts w)) (responses w) (writers w) (files w) (open_errors w) (calls w).
Definition set_responses (f : gmap loc bytes -> gmap loc bytes) (w : World) : World :=
  mkWorld (dicts w) (f (responses w)) (writers w) (files w) (open_errors w) (calls w).
Definition set_writers (f : gmap loc (list bytes) -> gmap loc (list bytes))
    (w : World) : World :=
  mkWorld (dicts w) (responses w) (f (writers w)) (files w) (open_errors w) (calls w).
Definition set_calls (f : list (Destination * Request) -> list (Destination * Request))
    (w : World) : World :=
  mkWorld (dicts w) (responses w) (writers w) (files w) (open_errors w) (f (calls w)).

(** Calls that touch the store and may raise. *)
Definition M (A : Type) : Type := World -> Result A * World.

Definition ret {A} (a : A) : M A := fun w => (Returned a, w).
Definition raise {A} (e : Exn) : M A := fun w => (Raised e, w).
Definition bind {A B} (m : M A) (k : A -> M B) : M B :=
  fun w =>
    match m w with
    | (Returned a, w') => k a w'
    | (Raised e, w') => (Raised e, w')
    end.

Notation "x <- m ;; k" := (bind m (fun x => k))
  (at level 100, m at next level, right associativity).

(** Python truth values of [str] and [bytes] arguments that default to
    [None]. *)
Definition truthy_str (s : option string) : bool :=
  match s with
  | Some s => negb (String.eqb s "")
  | None => false
  end.

Definition truthy_bytes (b : option bytes) : bool :=
  match b with
  | Some (_ :: _) => true
  | _ => false
  end.

(** *** dict operations *)

Definition deref (w : World) (d : loc) : gmap string string :=
  default ∅ (dicts w !! d).

(** [d.copy()]: a new dict object with the same items. *)
Definition dict_copy (d : loc) : M loc :=
  fun w =>
    let d' := fresh (dom (dicts w)) in
    (Returned d', set_dicts <[d' := deref w d]> w).

(** [d[key] = val] *)
Definition dict_setitem (d : loc) (key val : string) : M unit :=
  fun w => (Returned tt, set_dicts <[d := <[key := val]> (deref w d)]> w).

(** [open(path, "rb")] followed by [read()].  A path that cannot be
    opened raises the error it has ([IsADirectoryError] for a directory,
    [PermissionError] for a file that may not be read), and
    [FileNotFoundError] when nothing is there. *)
Definition read_file (path : string) : M bytes :=
  fun w =>
    match files w !! path with
    | Some content => (Returned content, w)
    | None =>
        (Raised (match open_errors w !! path with
                 | Some e => e
                 | None => FileNotFoundError path
                 end), w)
    end.

(** [writer.write(chunk)] *)
Definition write (writer : loc) (chunk : bytes) (w : World) : World :=
  set_writers <[writer := (default [] (writers w !! writer) ++ [chunk])%list]> w.


(** *** Streams *)

Definition unread (w : World) (r : Response) : bytes :=
  default [] (responses w !! resp_id r).

(** Modelled from the spec: one step of iterating an [ObjStream]
    ([aistore/sdk/types.py] is not among the sources): the next chunk of
    at most [chunk_size] bytes is taken off the unread body of the
    response; the sequence is lazy, finite and single-pass. *)
Definition next_chunk (os : ObjStream) (w : World) : option bytes * World :=
  match unread w (stream os) with
  | [] => (None, w)
  | rest =>
      let n := Z.to_nat (chunk_size os) in
      (Some (take n rest), set_responses <[resp_id (stream os) := drop n rest]> w)
  end.

(** [writer.writelines(lines)]: every item the iterable produces is
    written as soon as it is produced. *)
Fixpoint writelines_loop (fuel : nat) (writer : loc) (lines : ObjStream) (w : World) : World :=
  match fuel with
  | O => w
  | S fuel =>
      match next_chunk lines w with
      | (None, w) => w
      | (Some chunk, w) => writelines_loop fuel writer lines (write writer chunk w)
      end
  end.

(** The loop takes at most one step per unread byte, and one more to see
    the end. *)
Definition writelines (writer : loc) (lines : ObjStream) : M unit :=
  fun w =>
    (Returned tt, writelines_loop (S (length (unread w (stream lines)))) writer lines w).

(** The caller draining a stream, [list(obj_stream)]. *)
Fixpoint read_chunks_loop (fuel : nat) (os : ObjStream) (w : World) : list bytes * World :=
  match fuel with
  | O => ([], w)
  | S fuel =>
      match next_chunk os w with
      | (None, w) => ([], w)
      | (Some chunk, w) =>
          let '(chunks, w) := read_chunks_loop fuel os w in
          (chunk :: chunks, w)
      end
  end.

Definition read_chunks (os : ObjStream) (w : World) : list bytes * World :=
  read_chunks_loop (S (length (unread w (stream os)))) os w.

(** *** The request client and the facade *)

(** [RequestClient(endpoint)], as [Client.__init__] builds it. *)
Record RequestClient := mkRequestClient {
  endpoint : string
}.

(** What [Object.__init__] reads from its bucket.  [qparam] is a
    reference: the bucket and its objects share one dict. *)
Module Bucket.
Record t := make {
  client : RequestClient;
  name : string;
  qparam : loc
}.
End Bucket.

Record Object := mkObject {
  _bucket : Bucket.t;
  _client : RequestClient;
  _bck_name : string;
  _qparams : loc;
  _name : string
}.

Definition Object_init (bucket : Bucket.t) (name : string) : Object :=
  mkObject bucket (Bucket.client bucket) (Bucket.name bucket) (Bucket.qparam bucket) name.

Definition bucket (self : Object) : Bucket.t := _bucket self.
Definition name (self : Object) : string := _name self.

(** Modelled from the spec: destination selection of the request router
    ([aistore/sdk/request_client.py] is not among the sources).  A request
    goes to the primary proxy unless it carries a promote action whose
    value names a target, which pins it to that member. *)
Definition select_destination (req : Request) : Destination :=
  match json req with
  | Some msg =>
      match msg !! "action", msg !! "value" with
      | Some (JA (JStr act)), Some (JObj value) =>
          if decide (act = ACT_PROMOTE) then
            match value !! "target_id" with
            | Some (JStr tid) => Member tid
            | _ => PrimaryProxy
            end
          else PrimaryProxy
      | _, _ => PrimaryProxy
      end
  | None => PrimaryProxy
  end.

Section facade.

(** The cluster: what the member that receives a request answers, as
    the request client hands it on: a reply, or the error it raises
    for a failed or refused request. *)
Variable network : Destination -> Request -> Result Reply.

(** Modelled from the spec: [RequestClient.request]
    ([aistore/sdk/request_client.py] is not among the sources): the
    request is built from the arguments, sent to the selected member
    and the outcome is returned or raised; nothing is retried. *)
Definition request (self : RequestClient) (method : Method) (path : string)
    (params : loc) (stream : bool) (data : option bytes)
    (json : option (gmap string JVal)) : M Response :=
  fun w =>
    let req := mkRequest method path (deref w params) stream data json in
    let w := set_calls (fun cs => (cs ++ [(select_destination req, req)])%list) w in
    match network (select_destination req) req with
    | Raised e => (Raised e, w)
    | Returned reply =>
        let r := fresh (dom (responses w)) in
        (Returned (mkResponse r (reply_headers reply)),
         set_responses <[r := reply_body reply]> w)
    end.

Definition head (self : Object) : M Header :=
  resp <- request (_client self) HTTP_METHOD_HEAD
            ("objects/" ++ _bck_name self ++ "/" ++ name self)
            (_qparams self) false None None ;;
  ret (headers resp).

Definition get (self : Object) (archpath : string) (chunk_size : Z)
    (etl_name : option string) (writer : option loc) : M ObjStream :=
  params <- dict_copy (_qparams self) ;;
  _ <- dict_setitem params QParamArchpath archpath ;;
  _ <- (if truthy_str etl_name
        then dict_setitem params QParamETLName (default "" etl_name)
        else ret tt) ;;
  resp <- request (_client self) HTTP_METHOD_GET
            ("objects/" ++ _bck_name self ++ "/" ++ name self)
            params true None None ;;
  let obj_stream := mkObjStream resp (headers resp) chunk_size in
  _ <- (if writer is Some writer
        then writelines writer obj_stream
        else ret tt) ;;
  ret obj_stream.

Definition put (self : Object) (path : option string) (content : option bytes)
    : M Header :=
  if truthy_str path && truthy_bytes content
  then raise (ValueError "path and content are mutually exclusive")
  else
    let url := "/objects/" ++ _bck_name self ++ "/" ++ name self in
    data <- (if truthy_str path
             then data <- read_file (default "" path) ;; ret (Some data)
             else ret content) ;;
    resp <- request (_client self) HTTP_METHOD_PUT url (_qparams self)
              false data None ;;
    ret (headers resp).

Definition promote (self : Object) (path : string)
    (promote_options : option PromoteOptions.t) : M Header :=
  let url := "/objects/" ++ _bck_name self in
  let value :=
    match promote_options with
    | None =>
        PromoteAPIArgs.get_json (PromoteAPIArgs.with_defaults path (name self))
    | Some promote_options =>
        PromoteAPIArgs.get_json
          (PromoteAPIArgs.make
             (PromoteOptions.target_id promote_options)
             path
             (name self)
             (PromoteOptions.recursive promote_options)
             (PromoteOptions.overwrite_dest promote_options)
             (PromoteOptions.delete_source promote_options)
             (PromoteOptions.src_not_file_share promote_options))
    end in
  let json_val := ActionMsg.dict (ActionMsg.make ACT_PROMOTE path value) in
  resp <- request (_client self) HTTP_METHOD_POST url (_qparams self)
            false None (Some json_val) ;;
  ret (headers resp).

Definition delete (self : Object) : M unit :=
  _ <- request (_client self) HTTP_METHOD_DELETE
         ("objects/" ++ _bck_name self ++ "/" ++ name self)
         (_qparams self) false None None ;;
  ret tt.

End facade.

(** The query parameters the specification gives for a read: the
    bucket-scoped parameters, with [archpath] always present and [etl_name]
    present only for a non-empty transform name. *)
Definition spec_get_params (qparams : gmap string string) (archpath : string)
    (etl_name : option string) : gmap string string :=
  match etl_name with
  | Some etl =>
      if decide (etl = "") then <[QParamArchpath := archpath]> qparams
      else <[QParamETLName := etl]> (<[QParamArchpath := archpath]> qparams)
  | None => <[QParamArchpath := archpath]> qparams
  end.

End Sdk.

(** ** Sample values *)

Module Samples.
Import ClusterMapModel.

(** Cluster maps whose daemons are represented by their address. *)
Definition t1_only : gmap string string := {[ "t1" := "10.0.0.1:8081" ]}.

Definition map_v5 : @ClusterMap string := __init__ (Some t1_only) None None (Some 5%Z).
Definition map_v3 : @ClusterMap string := __init__ (Some t1_only) None None (Some 3%Z).
Definition empty_map : @ClusterMap string := __init__ None None None None.

(** An object [x] of bucket [bck], a cluster that answers every request
    with the three bytes [abc], and a store with the bucket's query
    parameters, one local file and the directory it is in. *)
Definition abc : list byte := [x61; x62; x63]%byte.

Definition cluster (dest : Sdk.Destination) (req : Sdk.Request) : Sdk.Result Sdk.Reply :=
  Sdk.Returned (Sdk.mkReply {[ "Content-Length" := "3" ]} abc).

Definition bck : Sdk.Bucket.t :=
  Sdk.Bucket.make (Sdk.mkRequestClient "http://localhost:8080") "bck" 1%positive.

Definition obj : Sdk.Object := Sdk.Object_init bck "x".

Definition world0 : Sdk.World :=
  Sdk.mkWorld {[ 1%positive := {[ "provider" := "ais" ]} ]} ∅ ∅
    {[ "/tmp/f" := abc ]} {[ "/tmp" := Sdk.IsADirectoryError "/tmp" ]} [].

Definition sink : positive := 7%positive.

End Samples.

(** ** Vocabulary for the further properties *)

(** The log after a call extends the log before it by at most one
    request. *)
Definition sends_at_most_once (w w' : Sdk.World) : Prop :=
  exists sent, Sdk.calls w' = (Sdk.calls w ++ sent)%list /\ length sent <= 1.

(** A cluster that cannot be reached: every request fails to connect. *)
Definition unreachable (dest : Sdk.Destination) (req : Sdk.Request) : Sdk.Result Sdk.Reply :=
  Sdk.Raised Sdk.ConnectionError.

(** * Properties of the cluster map model *)

Section cluster_map_facts.
Context {DaemonInfo DaemonDict : Type} `{!EqDecision DaemonInfo}.
Variable DaemonInfo_to_dict : DaemonInfo -> DaemonDict.
Import ClusterMapModel.
Implicit Types a b cm held : @ClusterMap DaemonInfo.

Lemma init_attributes t p s v :
  @__init__ DaemonInfo t p s v = mkClusterMap t p s v None.
Proof. by destruct t, p, s, v. Qed.

Lemma constructed_discriminator cm : constructed cm -> discriminator cm = None.
Proof.
  induction 1 as [t p s v| | | |]; try done.
  by rewrite init_attributes.
Qed.

Lemma of_dict_inj (x y : option (gmap string DaemonInfo)) :
  of_dict x = of_dict y -> x = y.
Proof. destruct x, y; simpl; congruence. Qed.

Lemma of_model_inj (x y : option DaemonInfo) : of_model x = of_model y -> x = y.
Proof. destruct x, y; simpl; congruence. Qed.

Lemma of_int_inj (x y : option Z) : @of_int DaemonInfo x = of_int y -> x = y.
Proof. destruct x, y; simpl; congruence. Qed.

Lemma of_str_inj (x y : option string) : @of_str DaemonInfo x = of_str y -> x = y.
Proof. destruct x, y; simpl; congruence. Qed.

Ltac lookup_attr H :=
  repeat first [ rewrite lookup_insert_eq in H
               | rewrite lookup_insert_ne in H by discriminate ].

(** Two instance dicts are equal exactly when the five attributes are. *)
Lemma dict_eq_iff a b :
  __dict__ a = __dict__ b <->
  _tmap a = _tmap b /\ _pmap a = _pmap b /\ _proxy_si a = _proxy_si b /\
  _version a = _version b /\ discriminator a = discriminator b.
Proof.
  split.
  - intros H. unfold __dict__ in H.
    pose proof (f_equal (.!! "_tmap") H) as H1.
    pose proof (f_equal (.!! "_pmap") H) as H2.
    pose proof (f_equal (.!! "_proxy_si") H) as H3.
    pose proof (f_equal (.!! "_version") H) as H4.
    pose proof (f_equal (.!! "discriminator") H) as H5.
    cbv beta in *. clear H.
    lookup_attr H1. lookup_attr H2. lookup_attr H3. lookup_attr H4. lookup_attr H5.
    repeat split.
    + apply of_dict_inj; congruence.
    + apply of_dict_inj; congruence.
    + apply of_model_inj; congruence.
    + eapply of_int_inj; congruence.
    + eapply of_str_inj; congruence.
  - intros (H1 & H2 & H3 & H4 & H5). unfold __dict__.
    by rewrite H1, H2, H3, H4, H5.
Qed.

(** C6, as amended.  The constructor accepts every combination of
    present and absent arguments and returns a map whose four attributes
    are exactly the arguments: an attribute whose argument is absent stays
    unset ([None]), the two mappings included, and with nothing supplied
    the map is the all-unset one. *)
Theorem init_fields_optional t p s v :
  tmap (@__init__ DaemonInfo t p s v) = t /\
  pmap (@__init__ DaemonInfo t p s v) = p /\
  proxy_si (@__init__ DaemonInfo t p s v) = s /\
  version (@__init__ DaemonInfo t p s v) = v /\
  @__init__ DaemonInfo None None None None = mkClusterMap None None None None None.
Proof. rewrite init_attributes. by repeat split. Qed.

(** C7, as amended.  [a == b] compares the instance dicts: it holds
    exactly when [tmap], [pmap], [proxy_si], [version] and [discriminator]
    are equal, which for maps made through the class is equality of the
    first four; [a != b] is its negation; and a map is never equal to a
    value that is not a [ClusterMap]. *)
Theorem eq_structural a b :
  (__eq__ a (PyClusterMap b) = true <->
     tmap a = tmap b /\ pmap a = pmap b /\
     proxy_si a = proxy_si b /\ version a = version b /\
     discriminator a = discriminator b)
  /\ (constructed a -> constructed b ->
      (__eq__ a (PyClusterMap b) = true <->
         tmap a = tmap b /\ pmap a = pmap b /\
         proxy_si a = proxy_si b /\ version a = version b))
  /\ __ne__ a (PyClusterMap b) = negb (__eq__ a (PyClusterMap b))
  /\ (forall other, (forall cm, other <> PyClusterMap cm) ->
        __eq__ a other = false /\ __ne__ a other = true).
Proof.
  split; [|split; [|split]].
  - unfold __eq__. rewrite bool_decide_eq_true. apply dict_eq_iff.
  - intros Ha%constructed_discriminator Hb%constructed_discriminator.
    unfold __eq__. rewrite bool_decide_eq_true, dict_eq_iff.
    unfold tmap, pmap, proxy_si, version. rewrite Ha, Hb. tauto.
  - reflexivity.
  - intros other Ho. unfold __ne__. destruct other; try done. by destruct (Ho cm).
Qed.



(** C10. [to_dict] returns a dictionary with exactly the keys [tmap],
    [pmap], [proxy_si] and [version]; each key holds the converted
    attribute, and an attribute that is unset is stored as [None], not left
    out: a map built from nothing serialises to four explicit nulls. *)
Theorem to_dict_key_set cm :
  exists d,
    to_dict DaemonInfo_to_dict cm = Some d /\
    dom d = ({[ "tmap"; "pmap"; "proxy_si"; "version" ]} : gset string) /\
    d !! "tmap" = Some (if tmap cm is Some m then VDict (DaemonInfo_to_dict <$> m) else VNone) /\
    d !! "pmap" = Some (if pmap cm is Some m then VDict (DaemonInfo_to_dict <$> m) else VNone) /\
    d !! "proxy_si" = Some (if proxy_si cm is Some i then VModel (DaemonInfo_to_dict i) else VNone) /\
    d !! "version" = Some (if version cm is Some z then VInt z else VNone) /\
    to_dict DaemonInfo_to_dict (__init__ None None None None) =
      Some (<["tmap" := VNone]> (<["pmap" := VNone]>
           (<["proxy_si" := VNone]> (<["version" := VNone]> ∅)))).
Proof.
  eexists. split; [reflexivity|].
  split; [|split; [|split; [|split; [|split]]]].
  - rewrite !dom_insert_L, dom_empty_L. set_solver.
  - rewrite lookup_insert_ne by discriminate. rewrite lookup_insert_ne by discriminate.
    rewrite lookup_insert_ne by discriminate. rewrite lookup_insert_eq.
    unfold tmap. by destruct (_tmap cm).
  - rewrite lookup_insert_ne by discriminate. rewrite lookup_insert_ne by discriminate.
    rewrite lookup_insert_eq. unfold pmap. by destruct (_pmap cm).
  - rewrite lookup_insert_ne by discriminate. rewrite lookup_insert_eq.
    unfold proxy_si. by destruct (_proxy_si cm).
  - rewrite lookup_insert_eq. unfold version. by destruct (_version cm).
  - apply (f_equal Some). apply map_eq. intros k.
    repeat (rewrite !lookup_insert; repeat case_decide; subst; try done).
Qed.

End cluster_map_facts.

(** C6, the claim as stated fails.  A mapping left out of the
    constructor is unset, not an empty mapping: the map built from nothing
    has no [tmap] and no [pmap], and is not equal to the map built with two
    empty dicts. *)
Lemma absent_mapping_is_unset :
  ClusterMapModel.tmap Samples.empty_map = None /\
  ClusterMapModel.pmap Samples.empty_map = None /\
  ClusterMapModel.tmap Samples.empty_map <> Some ∅ /\
  ClusterMapModel.pmap Samples.empty_map <> Some ∅ /\
  ClusterMapModel.__eq__ Samples.empty_map
    (ClusterMapModel.PyClusterMap
       (@ClusterMapModel.__init__ string (Some ∅) (Some ∅) None None)) = false.
Proof.
  split; [reflexivity|]. split; [reflexivity|].
  split; [discriminate|]. split; [discriminate|].
  vm_compute. reflexivity.
Qed.

(** C7, the claim as stated fails.  Two maps with the same [tmap],
    [pmap], [proxy_si] and [version] whose [discriminator] differs are not
    equal. *)
Lemma eq_sees_discriminator :
  let a := @ClusterMapModel.mkClusterMap string (Some Samples.t1_only) None None
             (Some 5%Z) None in
  let b := @ClusterMapModel.mkClusterMap string (Some Samples.t1_only) None None
             (Some 5%Z) (Some "ClusterMap") in
  ClusterMapModel.tmap a = ClusterMapModel.tmap b /\
  ClusterMapModel.pmap a = ClusterMapModel.pmap b /\
  ClusterMapModel.proxy_si a = ClusterMapModel.proxy_si b /\
  ClusterMapModel.version a = ClusterMapModel.version b /\
  ClusterMapModel.__eq__ a (ClusterMapModel.PyClusterMap b) = false /\
  ClusterMapModel.__ne__ a (ClusterMapModel.PyClusterMap b) = true.
Proof.
  cbn zeta. split; [reflexivity|]. split; [reflexivity|].
  split; [reflexivity|]. split; [reflexivity|].
  split; vm_compute; reflexivity.
Qed.

(** The amended equality statement at two sample maps made by the
    constructor, which differ in their version. *)
Lemma eq_structural_witness :
  ClusterMapModel.constructed Samples.map_v5 /\
  ClusterMapModel.constructed Samples.map_v3 /\
  (ClusterMapModel.__eq__ Samples.map_v5 (ClusterMapModel.PyClusterMap Samples.map_v3) = true <->
     ClusterMapModel.tmap Samples.map_v5 = ClusterMapModel.tmap Samples.map_v3 /\
     ClusterMapModel.pmap Samples.map_v5 = ClusterMapModel.pmap Samples.map_v3 /\
     ClusterMapModel.proxy_si Samples.map_v5 = ClusterMapModel.proxy_si Samples.map_v3 /\
     ClusterMapModel.version Samples.map_v5 = ClusterMapModel.version Samples.map_v3).
Proof.
  assert (H5 : ClusterMapModel.constructed Samples.map_v5)
    by apply ClusterMapModel.constructed_init.
  assert (H3 : ClusterMapModel.constructed Samples.map_v3)
    by apply ClusterMapModel.constructed_init.
  split; [exact H5|]. split; [exact H3|].
  exact (proj1 (proj2 (eq_structural Samples.map_v5 Samples.map_v3)) H5 H3).
Defined.


(** * Properties of the object facade *)

Section sdk_facts.
Import Sdk.
Variable network : Destination -> Request -> Result Reply.

Lemma deref_set_dicts_eq w d m : deref (set_dicts <[d := m]> w) d = m.
Proof. unfold deref. simpl. by rewrite lookup_insert_eq. Qed.

Lemma set_dicts_insert_twice w d m1 m2 :
  set_dicts <[d := m2]> (set_dicts <[d := m1]> w) = set_dicts <[d := m2]> w.
Proof. unfold set_dicts. simpl. by rewrite insert_insert_eq. Qed.

Lemma truthy_str_spec (s : option string) :
  truthy_str s = match s with
                 | Some s => if decide (s = "") then false else true
                 | None => false
                 end.
Proof.
  destruct s as [s|]; [|done]. simpl. case_decide as H.
  - by rewrite H.
  - destruct (String.eqb_spec s ""); [contradiction | done].
Qed.

(** [get], one statement after the other: the copy of the query
    parameters with the insertions made, the request logged and sent, the
    stream built, the writer fed. *)
Lemma get_unfold self archpath chunk_size etl_name writer w :
  get network self archpath chunk_size etl_name writer w =
    let params := fresh (dom (dicts w)) in
    let w1 := set_dicts
                <[params := spec_get_params (deref w (_qparams self)) archpath etl_name]> w in
    let req := mkRequest HTTP_METHOD_GET
                 ("objects/" ++ _bck_name self ++ "/" ++ name self)
                 (spec_get_params (deref w (_qparams self)) archpath etl_name)
                 true None None in
    let w2 := set_calls (fun cs => (cs ++ [(PrimaryProxy, req)])%list) w1 in
    match network PrimaryProxy req with
    | Raised e => (Raised e, w2)
    | Returned reply =>
        let resp := mkResponse (fresh (dom (responses w2))) (reply_headers reply) in
        let obj_stream := mkObjStream resp (reply_headers reply) chunk_size in
        let w3 := set_responses <[resp_id resp := reply_body reply]> w2 in
        (Returned obj_stream,
         match writer with
         | Some writer => snd (writelines writer obj_stream w3)
         | None => w3
         end)
    end.
Proof.
  unfold get, bind, dict_copy, dict_setitem, ret, request.
  rewrite truthy_str_spec. unfold spec_get_params.
  destruct etl_name as [etl|]; [case_decide|]; cbn zeta beta iota;
    rewrite ?deref_set_dicts_eq, ?set_dicts_insert_twice;
    rewrite ?deref_set_dicts_eq; cbn [default];
    unfold select_destination; cbn [json];
    (destruct (network _ _); [|done]); by destruct writer.
Qed.

Lemma next_chunk_frame os w :
  dicts (snd (next_chunk os w)) = dicts w /\
  writers (snd (next_chunk os w)) = writers w /\
  files (snd (next_chunk os w)) = files w /\
  calls (snd (next_chunk os w)) = calls w.
Proof. unfold next_chunk. by destruct (unread w (stream os)). Qed.

Lemma writelines_loop_frame writer os fuel : forall w,
  dicts (writelines_loop fuel writer os w) = dicts w /\
  files (writelines_loop fuel writer os w) = files w /\
  calls (writelines_loop fuel writer os w) = calls w.
Proof.
  induction fuel as [|fuel IH]; intros w; [done|]. simpl.
  destruct (next_chunk_frame os w) as (Hd & _ & Hf & Hc).
  destruct (next_chunk os w) as [[chunk|] w1]; simpl in *; [|done].
  destruct (IH (write writer chunk w1)) as (-> & -> & ->). done.
Qed.

Lemma writelines_frame writer os w :
  dicts (snd (writelines writer os w)) = dicts w /\
  files (snd (writelines writer os w)) = files w /\
  calls (snd (writelines writer os w)) = calls w.
Proof. apply writelines_loop_frame. Qed.


(** More fuel than the bound changes nothing: the bound never cuts the
    loop short. *)
Lemma writelines_loop_fuel writer os fuel : forall w,
  (0 < chunk_size os)%Z ->
  length (unread w (stream os)) < fuel ->
  writelines_loop (S fuel) writer os w = writelines_loop fuel writer os w.
Proof.
  induction fuel as [|fuel IH]; intros w Hn Hlen; [lia|].
  cbn [writelines_loop]. unfold next_chunk.
  destruct (unread w (stream os)) as [|b rest] eqn:Hrest; [done|].
  set (n := Z.to_nat (chunk_size os)). set (w1 := set_responses _ w).
  rewrite <- (IH (write writer (take n (b :: rest)) w1) Hn); [done|].
  assert (Hw1 : unread (write writer (take n (b :: rest)) w1) (stream os)
                = drop n (b :: rest)).
  { unfold unread, write, w1. simpl. by rewrite lookup_insert_eq. }
  rewrite Hw1, length_drop. simpl in *. lia.
Qed.

Lemma read_chunks_drained os w :
  unread w (stream os) = [] -> read_chunks os w = ([], w).
Proof.
  intros H. unfold read_chunks. rewrite H. simpl. unfold next_chunk. by rewrite H.
Qed.



(** C8. A read issues exactly one request, a streamed [GET] for the
    object's path with no body, whose query parameters are the
    bucket-scoped ones with [archpath] set to the argument and [etl_name]
    set only for a non-empty transform name; the two arguments appear
    nowhere else, and the call raises or returns as the answer to that
    request decides. *)
Theorem get_query_parameters self archpath chunk_size etl_name writer w :
  let req :=
    mkRequest HTTP_METHOD_GET ("objects/" ++ _bck_name self ++ "/" ++ name self)
      (match etl_name with
       | Some etl =>
           if decide (etl = "")
           then <[QParamArchpath := archpath]> (deref w (_qparams self))
           else <[QParamETLName := etl]>
                  (<[QParamArchpath := archpath]> (deref w (_qparams self)))
       | None => <[QParamArchpath := archpath]> (deref w (_qparams self))
       end)
      true None None in
  calls (snd (get network self archpath chunk_size etl_name writer w))
    = (calls w ++ [(PrimaryProxy, req)])%list /\
  fst (get network self archpath chunk_size etl_name writer w)
    = match network PrimaryProxy req with
      | Raised e => Raised e
      | Returned reply =>
          Returned (mkObjStream
                      (mkResponse (fresh (dom (responses w))) (reply_headers reply))
                      (reply_headers reply) chunk_size)
      end.
Proof.
  cbn zeta. rewrite get_unfold. cbn zeta.
  fold (spec_get_params (deref w (_qparams self)) archpath etl_name).
  destruct (network _ _) as [reply|e]; [|done].
  destruct writer as [writer|]; [|done].
  cbn [snd fst]. split; [|done].
  match goal with
  | |- calls (snd (writelines ?wr ?os ?w0)) = _ =>
      destruct (writelines_frame wr os w0) as (_ & _ & ->)
  end.
  done.
Qed.

(** C9. A read leaves the dict of bucket-scoped query parameters as it
    was, and every other dict that existed before the call: the
    insertions go to a copy. *)
Theorem get_keeps_caller_params self archpath chunk_size etl_name writer w :
  is_Some (dicts w !! _qparams self) ->
  dicts (snd (get network self archpath chunk_size etl_name writer w)) !! _qparams self
    = dicts w !! _qparams self /\
  forall d, is_Some (dicts w !! d) ->
    dicts (snd (get network self archpath chunk_size etl_name writer w)) !! d = dicts w !! d.
Proof.
  intros Hq.
  assert (Hall : forall d, is_Some (dicts w !! d) ->
    dicts (snd (get network self archpath chunk_size etl_name writer w)) !! d = dicts w !! d).
  { intros d Hd.
    assert (Hfresh : fresh (dom (dicts w)) <> d).
    { intros Heq. apply elem_of_dom in Hd. rewrite <- Heq in Hd. exact (is_fresh _ Hd). }
    rewrite get_unfold. cbn zeta.
    destruct (network _ _) as [reply|e]; cbn [snd].
    - destruct writer as [writer|].
      + match goal with
        | |- dicts (snd (writelines ?wr ?os ?w0)) !! _ = _ =>
            destruct (writelines_frame wr os w0) as (-> & _ & _)
        end.
        simpl. by rewrite lookup_insert_ne.
      + simpl. by rewrite lookup_insert_ne.
    - simpl. by rewrite lookup_insert_ne. }
  split; [by apply Hall | exact Hall].
Qed.

(** C2, as amended.  A write with a non-empty path and non-empty content
    raises [ValueError] and leaves the store as it was: no request has
    been issued. *)
Theorem put_rejects_path_and_content self p b bs w :
  p <> "" ->
  put network self (Some p) (Some (b :: bs)) w
    = (Raised (ValueError "path and content are mutually exclusive"), w) /\
  calls (snd (put network self (Some p) (Some (b :: bs)) w)) = calls w.
Proof.
  intros Hp. unfold put. rewrite truthy_str_spec. simpl.
  by case_decide.
Qed.

Ltac lookup_key :=
  repeat first [ rewrite lookup_insert_eq
               | rewrite lookup_insert_ne by discriminate ].

(** [promote], one statement after the other. *)
Lemma promote_unfold self p promote_options w :
  promote network self p promote_options w =
    let value := PromoteAPIArgs.get_json
      (PromoteAPIArgs.make
         (if promote_options is Some po then PromoteOptions.target_id po else None)
         p (name self)
         (if promote_options is Some po then PromoteOptions.recursive po else false)
         (if promote_options is Some po then PromoteOptions.overwrite_dest po else false)
         (if promote_options is Some po then PromoteOptions.delete_source po else false)
         (if promote_options is Some po then PromoteOptions.src_not_file_share po else false)) in
    let req := mkRequest HTTP_METHOD_POST ("/objects/" ++ _bck_name self)
                 (deref w (_qparams self)) false None
                 (Some (ActionMsg.dict (ActionMsg.make ACT_PROMOTE p value))) in
    let dest := match promote_options with
                | Some po => if PromoteOptions.target_id po is Some tid
                             then Member tid else PrimaryProxy
                | None => PrimaryProxy
                end in
    let w1 := set_calls (fun cs => (cs ++ [(dest, req)])%list) w in
    match network dest req with
    | Raised e => (Raised e, w1)
    | Returned reply =>
        (Returned (reply_headers reply),
         set_responses <[fresh (dom (responses w1)) := reply_body reply]> w1)
    end.
Proof.
  unfold promote, bind, request, ret. cbn zeta.
  assert (Hdest : forall args,
    select_destination
      (mkRequest HTTP_METHOD_POST ("/objects/" ++ _bck_name self) (deref w (_qparams self))
         false None (Some (ActionMsg.dict
           (ActionMsg.make ACT_PROMOTE p (PromoteAPIArgs.get_json args)))))
    = if PromoteAPIArgs.target_id args is Some tid then Member tid else PrimaryProxy).
  { intros args. unfold select_destination, ActionMsg.dict, PromoteAPIArgs.get_json.
    cbn [json ActionMsg.action ActionMsg.name ActionMsg.value]. lookup_key.
    rewrite decide_True by done. lookup_key.
    by destruct (PromoteAPIArgs.target_id args). }
  destruct promote_options as [po|]; rewrite Hdest;
    cbn [PromoteAPIArgs.target_id PromoteAPIArgs.with_defaults];
    by destruct (network _ _).
Qed.

(** C5. A promote of source path [p] with default options issues one
    [POST] to the bucket-level path whose JSON body has exactly the keys
    [action], [name] and [value]: the action is [promote], the name is
    [p], and the value has exactly the seven request fields, with the
    source path [p], the object's name, no target and every flag off.
    Passing options that are all defaults gives the same call. *)
Theorem promote_payload_shape self p w :
  exists body value,
    calls (snd (promote network self p None w))
      = (calls w ++
         [(PrimaryProxy,
           mkRequest HTTP_METHOD_POST ("/objects/" ++ _bck_name self)
             (deref w (_qparams self)) false None (Some body))])%list /\
    dom body = ({[ "action"; "name"; "value" ]} : gset string) /\
    body !! "action" = Some (JA (JStr "promote")) /\
    body !! "name" = Some (JA (JStr p)) /\
    body !! "value" = Some (JObj value) /\
    dom value = ({[ "target_id"; "source_path"; "object_name"; "recursive";
                    "overwrite_dest"; "delete_source"; "src_not_file_share" ]}
                 : gset string) /\
    value !! "source_path" = Some (JStr p) /\
    value !! "object_name" = Some (JStr (name self)) /\
    value !! "target_id" = Some JNull /\
    value !! "recursive" = Some (JBool false) /\
    value !! "overwrite_dest" = Some (JBool false) /\
    value !! "delete_source" = Some (JBool false) /\
    value !! "src_not_file_share" = Some (JBool false) /\
    promote network self p (Some (PromoteOptions.make None false false false false)) w
      = promote network self p None w.
Proof.
  eexists _, _. split.
  { rewrite promote_unfold. cbn zeta. destruct (network _ _); reflexivity. }
  unfold ActionMsg.dict, PromoteAPIArgs.get_json. cbn.
  split; [rewrite !dom_insert_L, dom_empty_L; set_solver|].
  split; [by lookup_key|]. split; [by lookup_key|]. split; [by lookup_key|].
  split; [rewrite !dom_insert_L, dom_empty_L; set_solver|].
  split; [by lookup_key|]. split; [by lookup_key|]. split; [by lookup_key|].
  split; [by lookup_key|]. split; [by lookup_key|]. split; [by lookup_key|].
  split; [by lookup_key|].
  by rewrite !promote_unfold.
Qed.

(** C3. A promote issues one [POST] to the bucket-level path; it is sent
    to the member named by the options' target identifier when there is
    one, and to the primary proxy when the options name no target or no
    options are given. *)
Theorem promote_destination self p promote_options w :
  exists req,
    calls (snd (promote network self p promote_options w))
      = (calls w ++
         [(match promote_options with
           | Some po =>
               match PromoteOptions.target_id po with
               | Some tid => Member tid
               | None => PrimaryProxy
               end
           | None => PrimaryProxy
           end, req)])%list /\
    method req = HTTP_METHOD_POST /\
    path req = "/objects/" ++ _bck_name self.
Proof.
  eexists. rewrite promote_unfold. cbn zeta.
  split; [destruct (network _ _); reflexivity|]. by split.
Qed.

End sdk_facts.



(** The frame property at a read that sets both query parameters. *)
Lemma get_keeps_caller_params_witness :
  is_Some (Sdk.dicts Samples.world0 !! Sdk._qparams Samples.obj) /\
  Sdk.dicts (snd (Sdk.get Samples.cluster Samples.obj "a/b.txt" 2 (Some "etl-1")
                    (Some Samples.sink) Samples.world0)) !! Sdk._qparams Samples.obj
    = Sdk.dicts Samples.world0 !! Sdk._qparams Samples.obj.
Proof.
  assert (Hlive : is_Some (Sdk.dicts Samples.world0 !! Sdk._qparams Samples.obj)).
  { exists {[ "provider" := "ais" ]}. reflexivity. }
  split; [exact Hlive|].
  exact (proj1 (get_keeps_caller_params Samples.cluster Samples.obj "a/b.txt" 2
                  (Some "etl-1") (Some Samples.sink) Samples.world0 Hlive)).
Defined.

(** C2, the claim as stated fails.  A write given a path and content that
    is the empty byte string, or content and a path that is the empty
    string, raises nothing and issues a request. *)
Lemma put_empty_argument_is_sent :
  (exists hdrs, fst (Sdk.put Samples.cluster Samples.obj (Some "/tmp/f") (Some [])
                       Samples.world0) = Sdk.Returned hdrs) /\
  length (Sdk.calls (snd (Sdk.put Samples.cluster Samples.obj (Some "/tmp/f") (Some [])
                            Samples.world0))) = 1 /\
  (exists hdrs, fst (Sdk.put Samples.cluster Samples.obj (Some "") (Some Samples.abc)
                       Samples.world0) = Sdk.Returned hdrs) /\
  length (Sdk.calls (snd (Sdk.put Samples.cluster Samples.obj (Some "") (Some Samples.abc)
                            Samples.world0))) = 1 /\
  Sdk.calls Samples.world0 = [].
Proof.
  split; [eexists; vm_compute; reflexivity|].
  split; [vm_compute; reflexivity|].
  split; [eexists; vm_compute; reflexivity|].
  split; [vm_compute; reflexivity|].
  reflexivity.
Qed.

(** The amended statement at a write with a path and three bytes. *)
Lemma put_rejects_path_and_content_witness :
  "/tmp/f" <> "" /\
  Sdk.put Samples.cluster Samples.obj (Some "/tmp/f") (Some Samples.abc) Samples.world0
    = (Sdk.Raised (Sdk.ValueError "path and content are mutually exclusive"),
       Samples.world0).
Proof.
  split; [discriminate|].
  apply (put_rejects_path_and_content Samples.cluster Samples.obj "/tmp/f"
           x61 [x62; x63]%byte Samples.world0).
  discriminate.
Defined.

(** * Further properties of the cluster map model *)

Section cluster_map_more.
Context {DaemonInfo DaemonDict : Type} `{!EqDecision DaemonInfo}.
Variable DaemonInfo_to_dict : DaemonInfo -> DaemonDict.
Import ClusterMapModel.
Implicit Types a b c cm : @ClusterMap DaemonInfo.

Ltac lookup_in H :=
  repeat first [ rewrite lookup_insert_eq in H
               | rewrite lookup_insert_ne in H by discriminate ].

Ltac lookup_goal :=
  repeat first [ rewrite lookup_insert_eq
               | rewrite lookup_insert_ne by discriminate ].

Lemma eq_true_iff a b :
  __eq__ a (PyClusterMap b) = true <->
  _tmap a = _tmap b /\ _pmap a = _pmap b /\ _proxy_si a = _proxy_si b /\
  _version a = _version b /\ discriminator a = discriminator b.
Proof. unfold __eq__. rewrite bool_decide_eq_true. apply dict_eq_iff. Qed.

(** X1. On any two instances, [==] compares the whole instance dict: it
    holds exactly when the four attributes and [discriminator] agree. *)
Theorem eq_compares_instance_dict a b :
  __eq__ a (PyClusterMap b) = true <->
  tmap a = tmap b /\ pmap a = pmap b /\ proxy_si a = proxy_si b /\
  version a = version b /\ discriminator a = discriminator b.
Proof. apply eq_true_iff. Qed.

(** X2. [==] between cluster maps is reflexive, symmetric and transitive,
    and [!=] never holds between a map and itself. *)
Theorem eq_is_equivalence :
  (forall a, __eq__ a (PyClusterMap a) = true /\ __ne__ a (PyClusterMap a) = false) /\
  (forall a b, __eq__ a (PyClusterMap b) = __eq__ b (PyClusterMap a)) /\
  (forall a b c, __eq__ a (PyClusterMap b) = true -> __eq__ b (PyClusterMap c) = true ->
                 __eq__ a (PyClusterMap c) = true).
Proof.
  split; [|split].
  - intros a. unfold __ne__, __eq__. by rewrite bool_decide_eq_true_2.
  - intros a b. unfold __eq__. apply bool_decide_ext. split; congruence.
  - intros a b c. unfold __eq__. rewrite !bool_decide_eq_true. congruence.
Qed.

(** X3. A map built without [tmap] (or [pmap]) is not equal to one built
    with the empty dict in its place, and the two serialise differently:
    [None] against an empty dict. *)
Theorem unset_is_not_empty p s v :
  __eq__ (__init__ None p s v) (PyClusterMap (__init__ (Some ∅) p s v)) = false /\
  __eq__ (__init__ p None s v) (PyClusterMap (__init__ p (Some ∅) s v)) = false /\
  (exists d, to_dict DaemonInfo_to_dict (__init__ None p s v) = Some d /\
             d !! "tmap" = Some VNone) /\
  (exists d, to_dict DaemonInfo_to_dict (__init__ (Some ∅) p s v) = Some d /\
             d !! "tmap" = Some (VDict ∅)).
Proof.
  split; [|split; [|split]].
  - apply not_true_is_false. rewrite eq_true_iff.
    rewrite !init_attributes. simpl. by intros [? _].
  - apply not_true_is_false. rewrite eq_true_iff.
    rewrite !init_attributes. simpl. by intros (_ & ? & _).
  - rewrite init_attributes. eexists. split; [reflexivity|]. by lookup_goal.
  - rewrite init_attributes. eexists. split; [reflexivity|].
    lookup_goal. simpl. by rewrite fmap_empty.
Qed.

Lemma to_dict_value_inj `{!Inj (=) (=) DaemonInfo_to_dict} (x y : AttrValue) :
  to_dict_value DaemonInfo_to_dict x = to_dict_value DaemonInfo_to_dict y -> x = y.
Proof.
  destruct x, y; simpl; intros H; try discriminate; inversion H; try done.
  - f_equal. by apply (inj DaemonInfo_to_dict).
  - f_equal. by apply (inj (fmap DaemonInfo_to_dict)).
  - f_equal. by apply (inj (fmap DaemonInfo_to_dict)).
Qed.

Lemma to_dict_eq_iff `{!Inj (=) (=) DaemonInfo_to_dict} a b :
  to_dict DaemonInfo_to_dict a = to_dict DaemonInfo_to_dict b <->
  _tmap a = _tmap b /\ _pmap a = _pmap b /\ _proxy_si a = _proxy_si b /\
  _version a = _version b.
Proof.
  split.
  - unfold to_dict. cbn. intros H. apply (inj Some) in H.
    pose proof (f_equal (.!! "tmap") H) as H1.
    pose proof (f_equal (.!! "pmap") H) as H2.
    pose proof (f_equal (.!! "proxy_si") H) as H3.
    pose proof (f_equal (.!! "version") H) as H4.
    cbv beta in *. clear H.
    lookup_in H1. lookup_in H2. lookup_in H3. lookup_in H4.
    apply (inj Some), to_dict_value_inj in H1, H2, H3, H4.
    repeat split.
    + by apply of_dict_inj.
    + by apply of_dict_inj.
    + by apply of_model_inj.
    + by eapply of_int_inj.
  - destruct a, b. simpl. by intros (-> & -> & -> & ->).
Qed.

(** X4. When [DaemonInfo.to_dict] loses nothing, two maps have the same
    [to_dict] exactly when their four attributes are equal; the
    [discriminator] plays no part in it. *)
Theorem to_dict_determines_attributes `{!Inj (=) (=) DaemonInfo_to_dict} a b :
  to_dict DaemonInfo_to_dict a = to_dict DaemonInfo_to_dict b <->
  tmap a = tmap b /\ pmap a = pmap b /\ proxy_si a = proxy_si b /\ version a = version b.
Proof. apply to_dict_eq_iff. Qed.

(** X5. For maps made through the class, and when [DaemonInfo.to_dict]
    loses nothing, [a == b] holds exactly when the two maps serialise to
    the same dict. *)
Theorem eq_iff_same_to_dict `{!Inj (=) (=) DaemonInfo_to_dict} a b :
  constructed a -> constructed b ->
  (__eq__ a (PyClusterMap b) = true <->
   to_dict DaemonInfo_to_dict a = to_dict DaemonInfo_to_dict b).
Proof.
  intros Ha%constructed_discriminator Hb%constructed_discriminator.
  rewrite eq_true_iff, to_dict_eq_iff, Ha, Hb. tauto.
Qed.

(** X6. Building a map from arguments is the same as building the empty
    map and assigning each attribute through its setter, in the order of
    the constructor or in the opposite order; and a second assignment to
    an attribute replaces the first. *)
Theorem init_is_setter_chain t p s v (cm : @ClusterMap DaemonInfo) t' v' :
  __init__ t p s v
    = set_version (set_proxy_si (set_pmap (set_tmap (__init__ None None None None) t) p) s) v /\
  __init__ t p s v
    = set_tmap (set_pmap (set_proxy_si (set_version (__init__ None None None None) v) s) p) t /\
  set_tmap (set_tmap cm t) t' = set_tmap cm t' /\
  set_version (set_version cm v) v' = set_version cm v'.
Proof. rewrite init_attributes. by repeat split. Qed.

End cluster_map_more.

(** X4 and X5 at the two sample maps, with daemons serialised as they
    are. *)
Lemma eq_iff_same_to_dict_witness :
  ClusterMapModel.constructed Samples.map_v5 /\
  ClusterMapModel.constructed Samples.map_v3 /\
  (ClusterMapModel.__eq__ Samples.map_v5 (ClusterMapModel.PyClusterMap Samples.map_v3) = true <->
   ClusterMapModel.to_dict (fun d : string => d) Samples.map_v5
     = ClusterMapModel.to_dict (fun d : string => d) Samples.map_v3).
Proof.
  split; [apply ClusterMapModel.constructed_init|].
  split; [apply ClusterMapModel.constructed_init|].
  apply (eq_iff_same_to_dict (fun d : string => d) (Inj0 := id_inj)
           Samples.map_v5 Samples.map_v3);
    apply ClusterMapModel.constructed_init.
Defined.

(** * Further properties of the object facade *)

Section sdk_more.
Import Sdk.
Variable network : Destination -> Request -> Result Reply.

Ltac lookup_field :=
  repeat first [ rewrite lookup_insert_eq
               | rewrite lookup_insert_ne by discriminate ].

Lemma sends_nothing w : sends_at_most_once w w.
Proof. exists []. split; [by rewrite app_nil_r | simpl; lia]. Qed.

Lemma sends_one w w' x : calls w' = (calls w ++ [x])%list -> sends_at_most_once w w'.
Proof. intros H. exists [x]. split; [done | simpl; lia]. Qed.

Lemma request_unfold self m p params st d j w :
  request network self m p params st d j w =
    let req := mkRequest m p (deref w params) st d j in
    let w1 := set_calls (fun cs => (cs ++ [(select_destination req, req)])%list) w in
    match network (select_destination req) req with
    | Raised e => (Raised e, w1)
    | Returned reply =>
        (Returned (mkResponse (fresh (dom (responses w))) (reply_headers reply)),
         set_responses <[fresh (dom (responses w)) := reply_body reply]> w1)
    end.
Proof. reflexivity. Qed.

Lemma request_frame self m p params st d j w :
  dicts (snd (request network self m p params st d j w)) = dicts w /\
  writers (snd (request network self m p params st d j w)) = writers w /\
  files (snd (request network self m p params st d j w)) = files w /\
  calls (snd (request network self m p params st d j w))
    = (calls w ++ [(select_destination (mkRequest m p (deref w params) st d j),
                    mkRequest m p (deref w params) st d j)])%list.
Proof. rewrite request_unfold. cbn zeta. by destruct (network _ _). Qed.

(** X7. [head] issues exactly one [HEAD] request for the object's path,
    with the bucket's query parameters and no body, and returns the
    headers of the answer or raises what the request raised. *)
Theorem head_request self w :
  let req := mkRequest HTTP_METHOD_HEAD
               ("objects/" ++ _bck_name self ++ "/" ++ name self)
               (deref w (_qparams self)) false None None in
  calls (snd (head network self w)) = (calls w ++ [(PrimaryProxy, req)])%list /\
  fst (head network self w)
    = match network PrimaryProxy req with
      | Raised e => Raised e
      | Returned reply => Returned (reply_headers reply)
      end.
Proof.
  cbn zeta. unfold head, bind, ret. rewrite request_unfold. cbn zeta.
  unfold select_destination. cbn [json]. by destruct (network _ _).
Qed.

(** X8. [delete] issues exactly one [DELETE] request for the object's
    path, with the bucket's query parameters and no body; it returns
    [None] whatever the answer holds, or raises what the request raised. *)
Theorem delete_request self w :
  let req := mkRequest HTTP_METHOD_DELETE
               ("objects/" ++ _bck_name self ++ "/" ++ name self)
               (deref w (_qparams self)) false None None in
  calls (snd (delete network self w)) = (calls w ++ [(PrimaryProxy, req)])%list /\
  fst (delete network self w)
    = match network PrimaryProxy req with
      | Raised e => Raised e
      | Returned _ => Returned tt
      end.
Proof.
  cbn zeta. unfold delete, bind, ret. rewrite request_unfold. cbn zeta.
  unfold select_destination. cbn [json]. by destruct (network _ _).
Qed.

Lemma truthy_str_nonempty p : p <> "" -> truthy_str (Some p) = true.
Proof. intros Hp. simpl. destruct (String.eqb_spec p ""); [contradiction | done]. Qed.

(** X9. A write whose path is absent or empty sends the content argument
    as it is, also when it is absent or empty, in exactly one [PUT] for
    the object's path; no file is read. *)
Theorem put_sends_content self path content w :
  truthy_str path = false ->
  let req := mkRequest HTTP_METHOD_PUT
               ("/objects/" ++ _bck_name self ++ "/" ++ name self)
               (deref w (_qparams self)) false content None in
  calls (snd (put network self path content w)) = (calls w ++ [(PrimaryProxy, req)])%list /\
  fst (put network self path content w)
    = match network PrimaryProxy req with
      | Raised e => Raised e
      | Returned reply => Returned (reply_headers reply)
      end.
Proof.
  intros Hp. cbn zeta. unfold put. rewrite Hp. cbn [andb].
  unfold bind, ret. rewrite request_unfold. cbn zeta.
  unfold select_destination. cbn [json]. by destruct (network _ _).
Qed.

(** X10. A write with a non-empty path and absent or empty content reads
    the file and sends all of its bytes in exactly one [PUT]; empty
    content that was passed along is ignored. *)
Theorem put_sends_file self p content file_bytes w :
  p <> "" ->
  truthy_bytes content = false ->
  files w !! p = Some file_bytes ->
  let req := mkRequest HTTP_METHOD_PUT
               ("/objects/" ++ _bck_name self ++ "/" ++ name self)
               (deref w (_qparams self)) false (Some file_bytes) None in
  calls (snd (put network self (Some p) content w))
    = (calls w ++ [(PrimaryProxy, req)])%list /\
  fst (put network self (Some p) content w)
    = match network PrimaryProxy req with
      | Raised e => Raised e
      | Returned reply => Returned (reply_headers reply)
      end.
Proof.
  intros Hp Hc Hfile. cbn zeta. unfold put.
  rewrite (truthy_str_nonempty p Hp), Hc. cbn [andb].
  unfold bind, ret, read_file. change (default "" (Some p)) with p. rewrite Hfile.
  rewrite request_unfold. cbn zeta.
  unfold select_destination. cbn [json]. by destruct (network _ _).
Qed.

(** X11. A write from a non-empty path that cannot be opened raises
    what [open] raises for it -- [FileNotFoundError] when nothing is at the
    path, the path's own error otherwise ([IsADirectoryError] for a
    directory, [PermissionError] for a file that may not be read) -- and
    leaves the store as it was: no request is issued. *)
Theorem put_unopened_path self p content w :
  p <> "" ->
  truthy_bytes content = false ->
  files w !! p = None ->
  put network self (Some p) content w
    = (Raised (match open_errors w !! p with
               | Some e => e
               | None => FileNotFoundError p
               end), w).
Proof.
  intros Hp Hc Hfile. unfold put.
  rewrite (truthy_str_nonempty p Hp), Hc. cbn [andb].
  unfold bind, ret, read_file. change (default "" (Some p)) with p. by rewrite Hfile.
Qed.
(** [put], case by case. *)
Lemma put_cases self path content w :
  put network self path content w =
    if truthy_str path && truthy_bytes content
    then (Raised (ValueError "path and content are mutually exclusive"), w)
    else
      let send data :=
        match request network (_client self) HTTP_METHOD_PUT
                ("/objects/" ++ _bck_name self ++ "/" ++ name self)
                (_qparams self) false data None w with
        | (Returned resp, w') => (Returned (headers resp), w')
        | (Raised e, w') => (Raised e, w')
        end in
      if truthy_str path
      then match files w !! default "" path with
           | Some file_bytes => send (Some file_bytes)
           | None =>
               (Raised (match open_errors w !! default "" path with
                        | Some e => e
                        | None => FileNotFoundError (default "" path)
                        end), w)
           end
      else send content.
Proof.
  unfold put. destruct (truthy_str path && truthy_bytes content); [done|].
  unfold bind, ret, read_file. cbn zeta.
  destruct (truthy_str path); [|done].
  by destruct (files w !! default "" path).
Qed.

Lemma head_calls self w :
  dicts (snd (head network self w)) = dicts w /\
  writers (snd (head network self w)) = writers w /\
  files (snd (head network self w)) = files w /\
  exists x, calls (snd (head network self w)) = (calls w ++ [x])%list.
Proof.
  unfold head, bind, ret.
  pose proof (request_frame (_client self) HTTP_METHOD_HEAD
    ("objects/" ++ _bck_name self ++ "/" ++ name self) (_qparams self) false None None w)
    as (Hd & Hw & Hf & Hc).
  destruct (request _ _ _ _ _ _ _ _ _) as [[resp|e] w']; simpl in *; eauto 6.
Qed.

Lemma delete_calls self w :
  dicts (snd (delete network self w)) = dicts w /\
  writers (snd (delete network self w)) = writers w /\
  files (snd (delete network self w)) = files w /\
  exists x, calls (snd (delete network self w)) = (calls w ++ [x])%list.
Proof.
  unfold delete, bind, ret.
  pose proof (request_frame (_client self) HTTP_METHOD_DELETE
    ("objects/" ++ _bck_name self ++ "/" ++ name self) (_qparams self) false None None w)
    as (Hd & Hw & Hf & Hc).
  destruct (request _ _ _ _ _ _ _ _ _) as [[resp|e] w']; simpl in *; eauto 6.
Qed.

Lemma promote_calls self p promote_options w :
  dicts (snd (promote network self p promote_options w)) = dicts w /\
  writers (snd (promote network self p promote_options w)) = writers w /\
  files (snd (promote network self p promote_options w)) = files w /\
  exists x, calls (snd (promote network self p promote_options w)) = (calls w ++ [x])%list.
Proof.
  rewrite promote_unfold. cbn zeta. destruct (network _ _); simpl; eauto 6.
Qed.

Lemma put_calls self path content w :
  dicts (snd (put network self path content w)) = dicts w /\
  writers (snd (put network self path content w)) = writers w /\
  files (snd (put network self path content w)) = files w /\
  (calls (snd (put network self path content w)) = calls w \/
   exists x, calls (snd (put network self path content w)) = (calls w ++ [x])%list).
Proof.
  rewrite put_cases.
  assert (Hsend : forall data,
    let r := match request network (_client self) HTTP_METHOD_PUT
                ("/objects/" ++ _bck_name self ++ "/" ++ name self)
                (_qparams self) false data None w with
             | (Returned resp, w') => (Returned (headers resp), w')
             | (Raised e, w') => (Raised e, w')
             end in
    dicts (snd r) = dicts w /\ writers (snd r) = writers w /\ files (snd r) = files w /\
    (calls (snd r) = calls w \/ exists x, calls (snd r) = (calls w ++ [x])%list)).
  { intros data.
    pose proof (request_frame (_client self) HTTP_METHOD_PUT
      ("/objects/" ++ _bck_name self ++ "/" ++ name self) (_qparams self) false data None w)
      as (Hd & Hw & Hf & Hc).
    destruct (request _ _ _ _ _ _ _ _ _) as [[resp|e] w']; simpl in *; eauto 8. }
  destruct (truthy_str path && truthy_bytes content); [by auto|]. cbn zeta.
  destruct (truthy_str path); [|apply Hsend].
  destruct (files w !! default "" path); [apply Hsend | by auto].
Qed.

Lemma get_calls self archpath chunk_size etl_name writer w :
  calls (snd (get network self archpath chunk_size etl_name writer w))
    = (calls w ++
       [(PrimaryProxy,
         mkRequest HTTP_METHOD_GET ("objects/" ++ _bck_name self ++ "/" ++ name self)
           (spec_get_params (deref w (_qparams self)) archpath etl_name)
           true None None)])%list /\
  files (snd (get network self archpath chunk_size etl_name writer w)) = files w.
Proof.
  rewrite get_unfold. cbn zeta.
  destruct (network _ _) as [reply|e]; [|done].
  destruct writer as [writer|]; [|done]. cbn [snd].
  match goal with
  | |- calls (snd (writelines ?wr ?os ?w0)) = _ /\ _ =>
      destruct (writelines_frame wr os w0) as (_ & -> & ->)
  end.
  done.
Qed.

Lemma get_live_dicts self archpath chunk_size etl_name writer w d :
  is_Some (dicts w !! d) ->
  dicts (snd (get network self archpath chunk_size etl_name writer w)) !! d = dicts w !! d.
Proof.
  intros Hd.
  assert (Hfresh : fresh (dom (dicts w)) <> d).
  { intros Heq. apply elem_of_dom in Hd. rewrite <- Heq in Hd. exact (is_fresh _ Hd). }
  rewrite get_unfold. cbn zeta.
  destruct (network _ _) as [reply|e]; cbn [snd].
  - destruct writer as [writer|].
    + match goal with
      | |- dicts (snd (writelines ?wr ?os ?w0)) !! _ = _ =>
          destruct (writelines_frame wr os w0) as (-> & _ & _)
      end.
      simpl. by rewrite lookup_insert_ne.
    + simpl. by rewrite lookup_insert_ne.
  - simpl. by rewrite lookup_insert_ne.
Qed.

(** X12. No method of the facade retries: whatever the arguments and
    whatever the cluster answers, each call adds at most one request to
    the log and leaves the earlier entries as they were. *)
Theorem facade_sends_at_most_once self archpath chunk_size etl_name writer
    path content p promote_options w :
  sends_at_most_once w (snd (head network self w)) /\
  sends_at_most_once w (snd (get network self archpath chunk_size etl_name writer w)) /\
  sends_at_most_once w (snd (put network self path content w)) /\
  sends_at_most_once w (snd (promote network self p promote_options w)) /\
  sends_at_most_once w (snd (delete network self w)).
Proof.
  split; [|split; [|split; [|split]]].
  - destruct (head_calls self w) as (_ & _ & _ & x & Hx). by eapply sends_one.
  - destruct (get_calls self archpath chunk_size etl_name writer w) as [Hx _].
    by eapply sends_one.
  - destruct (put_calls self path content w) as (_ & _ & _ & [Hx | [x Hx]]).
    + exists []. split; [by rewrite app_nil_r | simpl; lia].
    + by eapply sends_one.
  - destruct (promote_calls self p promote_options w) as (_ & _ & _ & x & Hx).
    by eapply sends_one.
  - destruct (delete_calls self w) as (_ & _ & _ & x & Hx). by eapply sends_one.
Qed.

(** X13. [head], [put], [promote] and [delete] pass the bucket's query
    parameters on and change no dict, no writer and no file; [get] changes
    no file, and no writer either when none is given. *)
Theorem facade_keeps_store self archpath chunk_size etl_name writer
    path content p promote_options w :
  let kept w' := dicts w' = dicts w /\ writers w' = writers w /\ files w' = files w in
  kept (snd (head network self w)) /\
  kept (snd (put network self path content w)) /\
  kept (snd (promote network self p promote_options w)) /\
  kept (snd (delete network self w)) /\
  files (snd (get network self archpath chunk_size etl_name writer w)) = files w /\
  writers (snd (get network self archpath chunk_size etl_name None w)) = writers w.
Proof.
  cbn zeta. split; [|split; [|split; [|split; [|split]]]].
  - destruct (head_calls self w) as (? & ? & ? & _). done.
  - destruct (put_calls self path content w) as (? & ? & ? & _). done.
  - destruct (promote_calls self p promote_options w) as (? & ? & ? & _). done.
  - destruct (delete_calls self w) as (? & ? & ? & _). done.
  - apply get_calls.
  - rewrite get_unfold. cbn zeta. by destruct (network _ _).
Qed.
(** X14. When the cluster cannot be reached, every method raises the
    error of the failed request and swallows nothing; a failed read has
    written nothing to its writer and has opened no response. *)
Theorem facade_propagates_errors e self archpath chunk_size etl_name writer
    content p promote_options w :
  (forall dest req, network dest req = Raised e) ->
  fst (head network self w) = Raised e /\
  fst (get network self archpath chunk_size etl_name writer w) = Raised e /\
  fst (put network self None content w) = Raised e /\
  fst (promote network self p promote_options w) = Raised e /\
  fst (delete network self w) = Raised e /\
  writers (snd (get network self archpath chunk_size etl_name writer w)) = writers w /\
  responses (snd (get network self archpath chunk_size etl_name writer w)) = responses w.
Proof.
  intros Hnet. split; [|split; [|split; [|split; [|split; [|split]]]]].
  - unfold head, bind, ret. rewrite request_unfold. cbn zeta. by rewrite Hnet.
  - rewrite get_unfold. cbn zeta. by rewrite Hnet.
  - rewrite put_cases. cbn. rewrite request_unfold. cbn zeta. by rewrite Hnet.
  - rewrite promote_unfold. cbn zeta. by rewrite Hnet.
  - unfold delete, bind, ret. rewrite request_unfold. cbn zeta. by rewrite Hnet.
  - rewrite get_unfold. cbn zeta. by rewrite Hnet.
  - rewrite get_unfold. cbn zeta. by rewrite Hnet.
Qed.

(** Draining a stream with a positive chunk size: the chunks add up to
    what was unread, each is non-empty and within the chunk size, and
    nothing is left; no writer is involved. *)
Lemma read_chunks_loop_drains os fuel : forall w,
  (0 < chunk_size os)%Z ->
  length (unread w (stream os)) < fuel ->
  concat (fst (read_chunks_loop fuel os w)) = unread w (stream os) /\
  Forall (fun c => 0 < length c /\ (Z.of_nat (length c) <= chunk_size os)%Z)
         (fst (read_chunks_loop fuel os w)) /\
  unread (snd (read_chunks_loop fuel os w)) (stream os) = [] /\
  writers (snd (read_chunks_loop fuel os w)) = writers w.
Proof.
  induction fuel as [|fuel IH]; intros w Hn Hlen; [lia|].
  simpl. unfold next_chunk.
  destruct (unread w (stream os)) as [|b rest] eqn:Hrest.
  - simpl. by rewrite Hrest.
  - set (n := Z.to_nat (chunk_size os)).
    set (w1 := set_responses _ w).
    assert (Hw1 : unread w1 (stream os) = drop n (b :: rest)).
    { unfold unread, w1. simpl. by rewrite lookup_insert_eq. }
    assert (Hn1 : 0 < n) by lia.
    destruct (IH w1 Hn) as (Hcat & Hall & Hun & Hwr).
    { rewrite Hw1, length_drop. simpl in *. lia. }
    destruct (read_chunks_loop fuel os w1) as [chunks w2]. simpl in *.
    split; [|split; [|split]].
    + rewrite Hcat, Hw1. apply take_drop.
    + constructor; [|done]. rewrite length_take. simpl length. lia.
    + done.
    + done.
Qed.

(** X15. A read without a writer consumes nothing: the stream it returns
    still holds the whole body and no writer is touched.  Draining that
    stream with a positive chunk size yields the body in non-empty chunks of
    at most the chunk size, and draining it again yields nothing. *)
Theorem get_without_writer_is_lazy self archpath chunk_size etl_name w reply :
  (0 < chunk_size)%Z ->
  network PrimaryProxy
    (mkRequest HTTP_METHOD_GET ("objects/" ++ _bck_name self ++ "/" ++ name self)
       (spec_get_params (deref w (_qparams self)) archpath etl_name) true None None)
    = Returned reply ->
  exists obj_stream w',
    get network self archpath chunk_size etl_name None w = (Returned obj_stream, w') /\
    response_headers obj_stream = reply_headers reply /\
    unread w' (stream obj_stream) = reply_body reply /\
    writers w' = writers w /\
    concat (fst (read_chunks obj_stream w')) = reply_body reply /\
    Forall (fun c => 0 < length c /\ (Z.of_nat (length c) <= chunk_size)%Z)
           (fst (read_chunks obj_stream w')) /\
    fst (read_chunks obj_stream (snd (read_chunks obj_stream w'))) = [].
Proof.
  intros Hn Hnet. rewrite get_unfold. cbn zeta. rewrite Hnet.
  set (os := mkObjStream _ _ _). set (w3 := set_responses _ _).
  assert (Hun : unread w3 (stream os) = reply_body reply).
  { unfold unread, w3, os. simpl. by rewrite lookup_insert_eq. }
  destruct (read_chunks_loop_drains os (S (length (unread w3 (stream os)))) w3)
    as (Hcat & Hall & Hdone & _); [done | lia |].
  exists os, w3. fold (read_chunks os w3) in Hcat, Hall, Hdone.
  split; [done|]. split; [done|]. split; [done|]. split; [done|].
  split; [by rewrite Hcat|]. split; [done|].
  by rewrite read_chunks_drained.
Qed.

Lemma writelines_loop_other writer other os fuel : forall w,
  other <> writer ->
  writers (writelines_loop fuel writer os w) !! other = writers w !! other.
Proof.
  induction fuel as [|fuel IH]; intros w Hne; [done|]. simpl.
  pose proof (next_chunk_frame os w) as (_ & Hw & _ & _).
  destruct (next_chunk os w) as [[chunk|] w1]; simpl in *; [|by rewrite Hw].
  rewrite IH by done. unfold write. simpl.
  rewrite lookup_insert_ne by done. by rewrite Hw.
Qed.

(** X16. A read with a writer writes to that writer only: every other
    writer holds what it held before. *)
Theorem get_leaves_other_writers self archpath chunk_size etl_name writer other w :
  other <> writer ->
  writers (snd (get network self archpath chunk_size etl_name (Some writer) w)) !! other
    = writers w !! other.
Proof.
  intros Hne. rewrite get_unfold. cbn zeta.
  destruct (network _ _) as [reply|e]; [|done].
  cbn [snd]. unfold writelines. cbn [snd]. by rewrite writelines_loop_other.
Qed.

(** X17. A promote with options forwards each of them unchanged: the
    value of the action body carries the options' target and four flags,
    the source path and the object's name; the action's name is the source
    path; the request has no data body and carries the bucket's query
    parameters. *)
Theorem promote_forwards_options self p po w :
  exists dest req body value,
    calls (snd (promote network self p (Some po) w)) = (calls w ++ [(dest, req)])%list /\
    method req = HTTP_METHOD_POST /\
    params req = deref w (_qparams self) /\
    data req = None /\
    json req = Some body /\
    body !! "action" = Some (JA (JStr ACT_PROMOTE)) /\
    body !! "name" = Some (JA (JStr p)) /\
    body !! "value" = Some (JObj value) /\
    value !! "target_id"
      = Some (if PromoteOptions.target_id po is Some tid then JStr tid else JNull) /\
    value !! "source_path" = Some (JStr p) /\
    value !! "object_name" = Some (JStr (name self)) /\
    value !! "recursive" = Some (JBool (PromoteOptions.recursive po)) /\
    value !! "overwrite_dest" = Some (JBool (PromoteOptions.overwrite_dest po)) /\
    value !! "delete_source" = Some (JBool (PromoteOptions.delete_source po)) /\
    value !! "src_not_file_share" = Some (JBool (PromoteOptions.src_not_file_share po)).
Proof.
  eexists _, _, _, _. split.
  { rewrite promote_unfold. cbn zeta. destruct (network _ _); reflexivity. }
  cbn [method params data json].
  split; [done|]. split; [done|]. split; [done|]. split; [reflexivity|].
  unfold ActionMsg.dict, PromoteAPIArgs.get_json. cbn.
  split; [by lookup_field|]. split; [by lookup_field|]. split; [by lookup_field|].
  split; [by lookup_field|]. split; [by lookup_field|]. split; [by lookup_field|].
  split; [by lookup_field|]. split; [by lookup_field|]. split; [by lookup_field|].
  by lookup_field.
Qed.

(** X18. An object shares the dict of query parameters with its bucket:
    an entry put into the bucket's dict after the object was made is
    carried by the object's next request, beside the entries that were
    there. *)
Theorem object_sees_bucket_params bucket n key val w :
  exists req,
    calls (snd (head network (Object_init bucket n)
                  (snd (dict_setitem (Bucket.qparam bucket) key val w))))
      = (calls w ++ [(PrimaryProxy, req)])%list /\
    params req = <[key := val]> (deref w (Bucket.qparam bucket)) /\
    _qparams (Object_init bucket n) = Bucket.qparam bucket.
Proof.
  eexists. unfold head, bind, ret. rewrite request_unfold. cbn zeta.
  unfold select_destination. cbn [json].
  split; [destruct (network _ _); reflexivity|].
  cbn [params]. split; [|done].
  unfold dict_setitem. cbn [snd Object_init _qparams]. apply deref_set_dicts_eq.
Qed.

(** X19. Reads do not leak into one another: after a read with some
    [archpath] and [etl_name], a second read sends the bucket's parameters
    with its own two arguments only, as if the first had not happened. *)
Theorem get_params_do_not_leak self a1 c1 e1 wr1 a2 c2 e2 wr2 w :
  is_Some (dicts w !! _qparams self) ->
  calls (snd (get network self a2 c2 e2 wr2 (snd (get network self a1 c1 e1 wr1 w))))
    = (calls w ++
       [(PrimaryProxy,
         mkRequest HTTP_METHOD_GET ("objects/" ++ _bck_name self ++ "/" ++ name self)
           (spec_get_params (deref w (_qparams self)) a1 e1) true None None);
        (PrimaryProxy,
         mkRequest HTTP_METHOD_GET ("objects/" ++ _bck_name self ++ "/" ++ name self)
           (spec_get_params (deref w (_qparams self)) a2 e2) true None None)])%list.
Proof.
  intros Hlive.
  assert (Hsame : deref (snd (get network self a1 c1 e1 wr1 w)) (_qparams self)
                  = deref w (_qparams self)).
  { unfold deref. by rewrite (get_live_dicts self a1 c1 e1 wr1 w _ Hlive). }
  destruct (get_calls self a2 c2 e2 wr2 (snd (get network self a1 c1 e1 wr1 w))) as [-> _].
  destruct (get_calls self a1 c1 e1 wr1 w) as [-> _].
  by rewrite Hsame, <- app_assoc.
Qed.

End sdk_more.

(** X2 at three sample maps: transitivity through a map whose version was
    assigned after construction. *)
Lemma eq_is_equivalence_witness :
  ClusterMapModel.__eq__ Samples.map_v5
    (ClusterMapModel.PyClusterMap (ClusterMapModel.set_version Samples.map_v3 (Some 5%Z)))
    = true /\
  ClusterMapModel.__eq__ (ClusterMapModel.set_version Samples.map_v3 (Some 5%Z))
    (ClusterMapModel.PyClusterMap Samples.map_v5) = true /\
  ClusterMapModel.__eq__ Samples.map_v5 (ClusterMapModel.PyClusterMap Samples.map_v5) = true.
Proof.
  assert (H1 : ClusterMapModel.__eq__ Samples.map_v5
    (ClusterMapModel.PyClusterMap (ClusterMapModel.set_version Samples.map_v3 (Some 5%Z)))
    = true) by (vm_compute; reflexivity).
  assert (H2 : ClusterMapModel.__eq__ (ClusterMapModel.set_version Samples.map_v3 (Some 5%Z))
    (ClusterMapModel.PyClusterMap Samples.map_v5) = true) by (vm_compute; reflexivity).
  split; [exact H1|]. split; [exact H2|].
  exact (proj2 (proj2 (@eq_is_equivalence string _)) _ _ _ H1 H2).
Defined.

(** X4 at the two sample maps, with daemons serialised as they are. *)
Lemma to_dict_determines_attributes_witness :
  Inj (=) (=) (fun d : string => d) /\
  (ClusterMapModel.to_dict (fun d : string => d) Samples.map_v5
     = ClusterMapModel.to_dict (fun d : string => d) Samples.map_v3 <->
   ClusterMapModel.tmap Samples.map_v5 = ClusterMapModel.tmap Samples.map_v3 /\
   ClusterMapModel.pmap Samples.map_v5 = ClusterMapModel.pmap Samples.map_v3 /\
   ClusterMapModel.proxy_si Samples.map_v5 = ClusterMapModel.proxy_si Samples.map_v3 /\
   ClusterMapModel.version Samples.map_v5 = ClusterMapModel.version Samples.map_v3).
Proof.
  split; [exact id_inj|].
  apply (to_dict_determines_attributes (fun d : string => d) (Inj0 := id_inj)
           Samples.map_v5 Samples.map_v3).
Defined.

(** X9 at a write of three bytes with no path. *)
Lemma put_sends_content_witness :
  Sdk.truthy_str None = false /\
  Sdk.calls (snd (Sdk.put Samples.cluster Samples.obj None (Some Samples.abc) Samples.world0))
    = (Sdk.calls Samples.world0 ++
       [(Sdk.PrimaryProxy,
         Sdk.mkRequest Sdk.HTTP_METHOD_PUT
           ("/objects/" ++ Sdk._bck_name Samples.obj ++ "/" ++ Sdk.name Samples.obj)
           (Sdk.deref Samples.world0 (Sdk._qparams Samples.obj)) false
           (Some Samples.abc) None)])%list.
Proof.
  split; [reflexivity|].
  exact (proj1 (put_sends_content Samples.cluster Samples.obj None (Some Samples.abc)
                  Samples.world0 eq_refl)).
Defined.

(** X10 at a write from the sample file, with empty content passed
    along. *)
Lemma put_sends_file_witness :
  "/tmp/f" <> "" /\
  Sdk.truthy_bytes (Some []) = false /\
  Sdk.files Samples.world0 !! "/tmp/f" = Some Samples.abc /\
  Sdk.calls (snd (Sdk.put Samples.cluster Samples.obj (Some "/tmp/f") (Some [])
                    Samples.world0))
    = (Sdk.calls Samples.world0 ++
       [(Sdk.PrimaryProxy,
         Sdk.mkRequest Sdk.HTTP_METHOD_PUT
           ("/objects/" ++ Sdk._bck_name Samples.obj ++ "/" ++ Sdk.name Samples.obj)
           (Sdk.deref Samples.world0 (Sdk._qparams Samples.obj)) false
           (Some Samples.abc) None)])%list.
Proof.
  assert (Hp : "/tmp/f" <> "") by discriminate.
  assert (Hf : Sdk.files Samples.world0 !! "/tmp/f" = Some Samples.abc) by reflexivity.
  split; [exact Hp|]. split; [reflexivity|]. split; [exact Hf|].
  exact (proj1 (put_sends_file Samples.cluster Samples.obj "/tmp/f" (Some []) Samples.abc
                  Samples.world0 Hp eq_refl Hf)).
Defined.

(** X11 at a write from the sample directory, and from a path at which
    the sample store has nothing. *)
Lemma put_unopened_path_witness :
  "/tmp" <> "" /\
  Sdk.truthy_bytes None = false /\
  Sdk.files Samples.world0 !! "/tmp" = None /\
  Sdk.files Samples.world0 !! "/tmp/none" = None /\
  Sdk.put Samples.cluster Samples.obj (Some "/tmp") None Samples.world0
    = (Sdk.Raised (Sdk.IsADirectoryError "/tmp"), Samples.world0) /\
  Sdk.put Samples.cluster Samples.obj (Some "/tmp/none") None Samples.world0
    = (Sdk.Raised (Sdk.FileNotFoundError "/tmp/none"), Samples.world0).
Proof.
  assert (Hd : "/tmp" <> "") by discriminate.
  assert (Hn : "/tmp/none" <> "") by discriminate.
  assert (Hfd : Sdk.files Samples.world0 !! "/tmp" = None) by reflexivity.
  assert (Hfn : Sdk.files Samples.world0 !! "/tmp/none" = None) by reflexivity.
  split; [exact Hd|]. split; [reflexivity|]. split; [exact Hfd|]. split; [exact Hfn|].
  split.
  - exact (put_unopened_path Samples.cluster Samples.obj "/tmp" None Samples.world0
             Hd eq_refl Hfd).
  - exact (put_unopened_path Samples.cluster Samples.obj "/tmp/none" None Samples.world0
             Hn eq_refl Hfn).
Defined.

(** X14 at the cluster that refuses every connection. *)
Lemma facade_propagates_errors_witness :
  (forall dest req, unreachable dest req = Sdk.Raised Sdk.ConnectionError) /\
  fst (Sdk.head unreachable Samples.obj Samples.world0) = Sdk.Raised Sdk.ConnectionError /\
  fst (Sdk.get unreachable Samples.obj "" 2 None (Some Samples.sink) Samples.world0)
    = Sdk.Raised Sdk.ConnectionError.
Proof.
  assert (H : forall dest req, unreachable dest req = Sdk.Raised Sdk.ConnectionError)
    by reflexivity.
  split; [exact H|].
  destruct (facade_propagates_errors unreachable Sdk.ConnectionError Samples.obj "" 2 None
              (Some Samples.sink) None "/data/x" None Samples.world0 H)
    as (Hhead & Hget & _).
  split; [exact Hhead | exact Hget].
Defined.

(** X15 at a read of the three sample bytes in chunks of two. *)
Lemma get_without_writer_is_lazy_witness :
  (0 < 2)%Z /\
  Samples.cluster Sdk.PrimaryProxy
    (Sdk.mkRequest Sdk.HTTP_METHOD_GET
       ("objects/" ++ Sdk._bck_name Samples.obj ++ "/" ++ Sdk.name Samples.obj)
       (Sdk.spec_get_params (Sdk.deref Samples.world0 (Sdk._qparams Samples.obj)) "" None)
       true None None)
    = Sdk.Returned (Sdk.mkReply {[ "Content-Length" := "3" ]} Samples.abc) /\
  exists obj_stream w',
    Sdk.get Samples.cluster Samples.obj "" 2 None None Samples.world0
      = (Sdk.Returned obj_stream, w') /\
    concat (fst (Sdk.read_chunks obj_stream w')) = Samples.abc /\
    fst (Sdk.read_chunks obj_stream (snd (Sdk.read_chunks obj_stream w'))) = [].
Proof.
  split; [lia|]. split; [reflexivity|].
  destruct (get_without_writer_is_lazy Samples.cluster Samples.obj "" 2 None Samples.world0
              (Sdk.mkReply {[ "Content-Length" := "3" ]} Samples.abc))
    as (os & w' & Hget & _ & _ & _ & Hcat & _ & Hagain); [lia | reflexivity |].
  exists os, w'. split; [exact Hget|]. split; [exact Hcat | exact Hagain].
Defined.

(** X16 at a read into the sample writer, looking at another writer. *)
Lemma get_leaves_other_writers_witness :
  9%positive <> Samples.sink /\
  Sdk.writers (snd (Sdk.get Samples.cluster Samples.obj "" 2 None (Some Samples.sink)
                      Samples.world0)) !! 9%positive
    = Sdk.writers Samples.world0 !! 9%positive.
Proof.
  assert (Hne : 9%positive <> Samples.sink) by discriminate.
  split; [exact Hne|].
  exact (get_leaves_other_writers Samples.cluster Samples.obj "" 2 None Samples.sink
           9%positive Samples.world0 Hne).
Defined.

(** X19 at a transformed archive read followed by a plain read. *)
Lemma get_params_do_not_leak_witness :
  is_Some (Sdk.dicts Samples.world0 !! Sdk._qparams Samples.obj) /\
  Sdk.calls (snd (Sdk.get Samples.cluster Samples.obj "" 2 None None
               (snd (Sdk.get Samples.cluster Samples.obj "a/b.txt" 2 (Some "etl-1") None
                       Samples.world0))))
    = (Sdk.calls Samples.world0 ++
       [(Sdk.PrimaryProxy,
         Sdk.mkRequest Sdk.HTTP_METHOD_GET
           ("objects/" ++ Sdk._bck_name Samples.obj ++ "/" ++ Sdk.name Samples.obj)
           (Sdk.spec_get_params (Sdk.deref Samples.world0 (Sdk._qparams Samples.obj))
              "a/b.txt" (Some "etl-1")) true None None);
        (Sdk.PrimaryProxy,
         Sdk.mkRequest Sdk.HTTP_METHOD_GET
           ("objects/" ++ Sdk._bck_name Samples.obj ++ "/" ++ Sdk.name Samples.obj)
           (Sdk.spec_get_params (Sdk.deref Samples.world0 (Sdk._qparams Samples.obj))
              "" None) true None None)])%list.
Proof.
  assert (Hlive : is_Some (Sdk.dicts Samples.world0 !! Sdk._qparams Samples.obj)).
  { exists {[ "provider" := "ais" ]}. reflexivity. }
  split; [exact Hlive|].
  exact (get_params_do_not_leak Samples.cluster Samples.obj "a/b.txt" 2 (Some "etl-1") None
           "" 2 None None Samples.world0 Hlive).
Defined.
